(** * newline_to_null.py: from a newline-separated word list to a
      null-separated word table

    The script reads [NUMBER_OF_WORDS] lines of the text file [INPUT_FILE],
    replaces the newlines by null characters, writes the UTF-8 bytes to
    [wordtable.bin] while it sums their lengths, and then writes [sizes.c],
    a C fragment with the number of words and the length of the table.

    The development embeds the script in Gallina.  A Python [str] is a list
    of code points, a [bytes] object a list of byte values, both over [Z];
    the three files the script touches are the fields of a record; an
    uncaught exception ends the run with a traceback. *)

From Stdlib Require Import ZArith List Bool Lia String Ascii.
From Stdlib Require Import DecimalString DecimalZ.
Import ListNotations.

Local Open Scope Z_scope.

(** ** Python values *)

(** A [str]: the code points of its characters, each in [0, 0x10FFFF]. *)
Definition str := list Z.

(** A [bytes] object: its byte values, each in [0, 255]. *)
Definition bytes := list Z.

(** ['\n'] and ['\0']. *)
Definition NL : Z := 10.
Definition NUL : Z := 0.

(** The code points of a Rocq string of ASCII characters, to write texts. *)
Fixpoint str_of_string (s : string) : str :=
  match s with
  | EmptyString => []
  | String a s' => Z.of_nat (nat_of_ascii a) :: str_of_string s'
  end.

(** [s.replace(old, new)] for one-character [old] and [new]: every
    occurrence is replaced. *)
Definition replace (old new : Z) (s : str) : str :=
  map (fun c => if c =? old then new else c) s.

(** The UTF-8 bytes of one code point.  The surrogates [D800..DFFF] have no
    encoding: Python raises [UnicodeEncodeError] on them.  Values outside
    [0, 0x10FFFF] are no code points. *)
Definition utf8_char (c : Z) : option bytes :=
  if c <? 0 then None
  else if c <? 0x80 then Some [c]
  else if c <? 0x800 then
    Some [Z.lor 0xC0 (Z.shiftr c 6); Z.lor 0x80 (Z.land c 0x3F)]
  else if (0xD800 <=? c) && (c <=? 0xDFFF) then None
  else if c <? 0x10000 then
    Some [Z.lor 0xE0 (Z.shiftr c 12);
          Z.lor 0x80 (Z.land (Z.shiftr c 6) 0x3F);
          Z.lor 0x80 (Z.land c 0x3F)]
  else if c <? 0x110000 then
    Some [Z.lor 0xF0 (Z.shiftr c 18);
          Z.lor 0x80 (Z.land (Z.shiftr c 12) 0x3F);
          Z.lor 0x80 (Z.land (Z.shiftr c 6) 0x3F);
          Z.lor 0x80 (Z.land c 0x3F)]
  else None.

(** [bytes(s, encoding="utf-8")]; [None] stands for [UnicodeEncodeError]. *)
Fixpoint encode_utf8 (s : str) : option bytes :=
  match s with
  | [] => Some []
  | c :: s' =>
      match utf8_char c, encode_utf8 s' with
      | Some b, Some bs => Some (b ++ bs)
      | _, _ => None
      end
  end.

(** [len(b)], a Python int. *)
Definition len (b : bytes) : Z := Z.of_nat (List.length b).

(** ["%d" % v]: the decimal digits of [v], with a minus sign when negative. *)
Definition format_d (v : Z) : string := NilZero.string_of_int (Z.to_int v).

(** ** Text streams *)

(** [i.readline()] on a stream whose unread text is [s]: the line, up to and
    with its newline, and the text left unread.  At the end of the text the
    line has no newline, and it is empty once nothing is left: [readline]
    never raises.  The text is the one Python's text layer delivers, decoded
    and with the line ends already translated to ['\n']. *)
Fixpoint readline (s : str) : str * str :=
  match s with
  | [] => ([], [])
  | c :: s' =>
      if c =? NL then ([c], s')
      else let (l, r) := readline s' in (c :: l, r)
  end.

(** ** The file system *)

(** The three files of the script.  [None] is a file that does not exist
    (for the input: that cannot be opened).  The input is a text file, held
    as its text; [wordtable.bin] is binary; [sizes.c] is held as the text
    written to it.  The model follows the script on a source whose bytes
    decode and with output paths that can be written: a source that does
    not decode and an output that cannot be created are not represented. *)
Record files : Type := mkFiles {
  input_file : option str;
  wordtable_bin : option bytes;
  sizes_c : option string
}.

(** The exceptions of the model: [OSError] when the input cannot be opened
    (no such file, a directory, no permission), [UnicodeEncodeError] from
    [bytes(..., encoding="utf-8")]. *)
Inductive exn : Type :=
| OSError
| UnicodeEncodeError.

(** How the process ends. *)
Inductive status : Type :=
| Exit0
| Traceback (e : exn).

Inductive result (A : Type) : Type :=
| Ok (a : A)
| Raise (e : exn).
Arguments Ok {A} a.
Arguments Raise {A} e.

(** ** The script *)

Definition NUMBER_OF_WORDS : Z := 50000.

Definition newline : string := String (ascii_of_nat 10) EmptyString.
Definition dquote : string := String (ascii_of_nat 34) EmptyString.

(** The text written to [sizes.c], with [v] for the [%d].  The number of
    words is the literal [50000] of the format string. *)
Definition sizes_text (v : Z) : string :=
  ("#include <stdint.h>" ++ newline ++
   "#include <stddef.h>" ++ newline ++
   "#include " ++ dquote ++ "cobalt.h" ++ dquote ++ newline ++ newline ++
   "const uint16_t NUMBER_OF_WORDS = 50000;" ++ newline ++
   "const size_t WORDTABLE_STRLEN = " ++ format_d v ++ ";")%string.

(** The [for count in range(...)] loop, [count] iterations to go: [i] is
    the unread text of the input, [length] the running total and [o] what
    [wordtable.bin] holds so far.  Returns the content of [wordtable.bin]
    when the loop ends, and [length] or the exception that ended it. *)
Fixpoint for_loop (count : nat) (i : str) (length : Z) (o : bytes)
  : bytes * result Z :=
  match count with
  | O => (o, Ok length)
  | S count' =>
      let (text, i') := readline i in
      match encode_utf8 (replace NL NUL text) with
      | None => (o, Raise UnicodeEncodeError)
      | Some line => for_loop count' i' (length + len line) (o ++ line)
      end
  end.

(** The [__main__] block with [n] for [NUMBER_OF_WORDS].  Opening the input
    comes first, so without it nothing is written; [wordtable.bin] is
    opened with ["wb"], which empties it, and closed by the [with] also
    when the loop raises; [sizes.c] is written after the loop only. *)
Definition run (n : Z) (fs : files) : files * status :=
  match input_file fs with
  | None => (fs, Traceback OSError)
  | Some text =>
      let (o, r) := for_loop (Z.to_nat n) text 0 [] in
      let fs1 := mkFiles (input_file fs) (Some o) (sizes_c fs) in
      match r with
      | Raise e => (fs1, Traceback e)
      | Ok length =>
          (mkFiles (input_file fs1) (wordtable_bin fs1)
                   (Some (sizes_text (length - 1))),
           Exit0)
      end
  end.

Definition main (fs : files) : files * status := run NUMBER_OF_WORDS fs.

(** A file system with the input [s] and no output yet. *)
Definition only_input (s : string) : files :=
  mkFiles (Some (str_of_string s)) None None.

Definition ant_bat_cat : string :=
  ("ant" ++ newline ++ "bat" ++ newline ++ "cat" ++ newline)%string.


(** ** The words of the specification *)

(** The lines of a text, each with its newline; only the last one can lack
    it.  These are the lines [readline] returns one after the other until
    the text is used up. *)
Fixpoint text_lines (s : str) : list str :=
  match s with
  | [] => []
  | c :: s' =>
      if c =? NL then [c] :: text_lines s'
      else match text_lines s' with
           | [] => [[c]]
           | l :: ls => (c :: l) :: ls
           end
  end.

(** The pieces of [b] that the byte [d] ends: every [d] closes a piece, and
    bytes after the last [d], if any, make a last piece. *)
Fixpoint split_on (d : Z) (b : bytes) : list bytes :=
  match b with
  | [] => []
  | x :: b' =>
      if x =? d then [] :: split_on d b'
      else match split_on d b' with
           | [] => [[x]]
           | r :: rs => (x :: r) :: rs
           end
  end.

(** The number of bytes of a word in UTF-8 ([0] when it has no encoding). *)
Definition byte_length (w : str) : Z :=
  match encode_utf8 w with
  | Some b => len b
  | None => 0
  end.

(** The transform in the specification's words: the first newline of the
    line becomes a null character. *)
Fixpoint replace_first (old new : Z) (s : str) : str :=
  match s with
  | [] => []
  | c :: s' =>
      if c =? old then new :: s' else c :: replace_first old new s'
  end.

(** The conversion loop in the specification's words. *)
Fixpoint spec_loop (count : nat) (i : str) (length : Z) (o : bytes)
  : bytes * result Z :=
  match count with
  | O => (o, Ok length)
  | S count' =>
      let (text, i') := readline i in
      match encode_utf8 (replace_first NL NUL text) with
      | None => (o, Raise UnicodeEncodeError)
      | Some line => spec_loop count' i' (length + len line) (o ++ line)
      end
  end.

(** The fragment of the specification: three includes, an empty line and
    the two constants, the word count [n] and the table length [v]. *)
Definition constants_fragment (n v : Z) : string :=
  String.concat newline
    ["#include <stdint.h>";
     "#include <stddef.h>";
     "#include " ++ dquote ++ "cobalt.h" ++ dquote;
     "";
     "const uint16_t NUMBER_OF_WORDS = " ++ format_d n ++ ";";
     "const size_t WORDTABLE_STRLEN = " ++ format_d v ++ ";"]%string.

(** The first [n] lines of [text] are the words [ws], each followed by a
    newline: the text has [n] lines or more, and the first [n] are
    newline-terminated. *)
Definition first_words (n : Z) (text : str) (ws : list str) : Prop :=
  firstn (Z.to_nat n) (text_lines text) = map (fun w => w ++ [NL]) ws /\
  List.length ws = Z.to_nat n.

(** The sum, over the words, of the bytes of the word and of one byte for
    its delimiter. *)
Definition table_size (ws : list str) : Z :=
  fold_right Z.add 0 (map (fun w => byte_length w + 1) ws).

(** The lines the loop reads in [count] iterations from the text [s]. *)
Fixpoint readlines (count : nat) (s : str) : list str :=
  match count with
  | O => []
  | S count' =>
      fst (readline s) :: readlines count' (snd (readline s))
  end.

(** The line without the newline at its end, where it has one. *)
Fixpoint strip_newline (l : str) : str :=
  match l with
  | [] => []
  | c :: l' =>
      match l' with
      | [] => if c =? NL then [] else [c]
      | _ :: _ => c :: strip_newline l'
      end
  end.

(** The text of the first [n] lines of [text], or of all its lines if
    there are fewer. *)
Definition first_lines (n : Z) (text : str) : str :=
  List.concat (firstn (Z.to_nat n) (text_lines text)).

(** What the characters of a [str] are, which of them UTF-8 refuses, and
    which it writes as one byte. *)
Definition code_point (c : Z) : Prop := 0 <= c < 0x110000.
Definition surrogate (c : Z) : Prop := 0xD800 <= c <= 0xDFFF.
Definition ascii_char (c : Z) : Prop := 0 <= c < 0x80.

(** * Properties *)

(** ** UTF-8 *)

Section Utf8.

Lemma lor_80 (y : Z) : 0 <= y < 64 -> Z.lor 0x80 y = 0x80 + y.
Proof.
  intros H. destruct y as [|p|p]; [reflexivity| |lia].
  do 6 (destruct p as [p|p|]; try lia; try reflexivity).
Qed.

Lemma lor_C0 (y : Z) : 0 <= y < 32 -> Z.lor 0xC0 y = 0xC0 + y.
Proof.
  intros H. destruct y as [|p|p]; [reflexivity| |lia].
  do 5 (destruct p as [p|p|]; try lia; try reflexivity).
Qed.

Lemma lor_E0 (y : Z) : 0 <= y < 16 -> Z.lor 0xE0 y = 0xE0 + y.
Proof.
  intros H. destruct y as [|p|p]; [reflexivity| |lia].
  do 4 (destruct p as [p|p|]; try lia; try reflexivity).
Qed.

Lemma lor_F0 (y : Z) : 0 <= y < 8 -> Z.lor 0xF0 y = 0xF0 + y.
Proof.
  intros H. destruct y as [|p|p]; [reflexivity| |lia].
  do 3 (destruct p as [p|p|]; try lia; try reflexivity).
Qed.

Lemma land_3F (c : Z) : 0 <= Z.land c 0x3F < 64.
Proof.
  change 0x3F with (Z.ones 6). rewrite Z.land_ones by lia.
  apply Z.mod_pos_bound. reflexivity.
Qed.

Lemma shiftr_bound (c k m : Z) :
  0 <= k -> 0 <= c < m * 2 ^ k -> 0 <= Z.shiftr c k < m.
Proof.
  intros Hk Hc. rewrite Z.shiftr_div_pow2 by assumption.
  assert (0 < 2 ^ k) by (apply Z.pow_pos_nonneg; lia).
  split.
  - apply Z.div_pos; lia.
  - apply Z.div_lt_upper_bound; lia.
Qed.

(** A code point below [0x80] is its own byte; the bytes of any other
    are all in [0x80, 0xFF]. *)
Lemma utf8_char_cases (c : Z) (b : bytes) :
  utf8_char c = Some b ->
  (0 <= c < 0x80 /\ b = [c]) \/
  (0x80 <= c /\ Forall (fun x => 0x80 <= x < 0x100) b).
Proof.
  unfold utf8_char.
  pose proof (land_3F c) as L0.
  pose proof (land_3F (Z.shiftr c 6)) as L6.
  pose proof (land_3F (Z.shiftr c 12)) as L12.
  destruct (Z.ltb_spec c 0) as [|Hc0]; [discriminate|].
  destruct (Z.ltb_spec c 0x80) as [|Hc1].
  { intros E. left. split; [lia | congruence]. }
  destruct (Z.ltb_spec c 0x800) as [Hc2|Hc2].
  { pose proof (shiftr_bound c 6 32 ltac:(lia) ltac:(lia)).
    rewrite lor_C0, lor_80 by assumption.
    intros E. right. split; [assumption|].
    assert (E' : b = [0xC0 + Z.shiftr c 6; 0x80 + Z.land c 0x3F])
      by congruence.
    rewrite E'. repeat constructor; lia. }
  destruct ((0xD800 <=? c) && (c <=? 0xDFFF)); [discriminate|].
  destruct (Z.ltb_spec c 0x10000) as [Hc3|Hc3].
  { pose proof (shiftr_bound c 12 16 ltac:(lia) ltac:(lia)).
    rewrite lor_E0, !lor_80 by assumption.
    intros E. right. split; [assumption|].
    assert (E' : b = [0xE0 + Z.shiftr c 12;
                      0x80 + Z.land (Z.shiftr c 6) 0x3F;
                      0x80 + Z.land c 0x3F])
      by congruence.
    rewrite E'. repeat constructor; lia. }
  destruct (Z.ltb_spec c 0x110000) as [Hc4|Hc4]; [|discriminate].
  pose proof (shiftr_bound c 18 8 ltac:(lia) ltac:(lia)).
  rewrite lor_F0, !lor_80 by assumption.
  intros E. right. split; [assumption|].
  assert (E' : b = [0xF0 + Z.shiftr c 18;
                    0x80 + Z.land (Z.shiftr c 12) 0x3F;
                    0x80 + Z.land (Z.shiftr c 6) 0x3F;
                    0x80 + Z.land c 0x3F])
    by congruence.
  rewrite E'. repeat constructor; lia.
Qed.

End Utf8.

Section Encoding.

Lemma len_app (a b : bytes) : len (a ++ b) = len a + len b.
Proof. unfold len. rewrite length_app. lia. Qed.

Lemma encode_utf8_app (a b : str) :
  encode_utf8 (a ++ b) =
  match encode_utf8 a, encode_utf8 b with
  | Some x, Some y => Some (x ++ y)
  | _, _ => None
  end.
Proof.
  induction a as [|c a IH]; simpl.
  - destruct (encode_utf8 b); reflexivity.
  - rewrite IH. destruct (utf8_char c); [|reflexivity].
    destruct (encode_utf8 a); [|reflexivity].
    destruct (encode_utf8 b); [|reflexivity].
    rewrite app_assoc. reflexivity.
Qed.

Lemma encode_utf8_app_inv (a b : str) (out : bytes) :
  encode_utf8 (a ++ b) = Some out ->
  exists x y, encode_utf8 a = Some x /\ encode_utf8 b = Some y /\
              out = x ++ y.
Proof.
  rewrite encode_utf8_app.
  destruct (encode_utf8 a) as [x|]; [|discriminate].
  destruct (encode_utf8 b) as [y|]; [|discriminate].
  intros [= <-]. eauto.
Qed.

(** A character below [0x80] is encoded by itself. *)
Lemma utf8_char_ascii (c : Z) : 0 <= c < 0x80 -> utf8_char c = Some [c].
Proof.
  intros H. unfold utf8_char.
  destruct (Z.ltb_spec c 0); [lia|].
  destruct (Z.ltb_spec c 0x80); [reflexivity|lia].
Qed.

(** A byte below [0x80] is in the encoding only where the character
    itself is in the text. *)
Lemma encode_utf8_In (d : Z) (s : str) (b : bytes) :
  d < 0x80 -> encode_utf8 s = Some b -> In d b -> In d s.
Proof.
  intros Hd. revert b. induction s as [|c s IH]; simpl; intros b E Hin.
  - injection E as <-. exact Hin.
  - destruct (utf8_char c) as [x|] eqn:Ec; [|discriminate].
    destruct (encode_utf8 s) as [y|]; [|discriminate].
    injection E as <-. apply in_app_or in Hin as [Hin|Hin].
    + left. apply utf8_char_cases in Ec as [[_ ->]|[_ F]].
      * destruct Hin as [->|[]]. reflexivity.
      * rewrite Forall_forall in F. apply F in Hin. lia.
    + right. eapply IH; [reflexivity|assumption].
Qed.

(** What [encode_utf8] returns are bytes. *)
Lemma encode_utf8_bytes (s : str) (b : bytes) :
  encode_utf8 s = Some b -> Forall (fun x => 0 <= x < 0x100) b.
Proof.
  revert b. induction s as [|c s IH]; simpl; intros b E.
  - injection E as <-. constructor.
  - destruct (utf8_char c) as [x|] eqn:Ec; [|discriminate].
    destruct (encode_utf8 s) as [y|]; [|discriminate].
    injection E as <-. apply Forall_app. split; [|apply IH; reflexivity].
    apply utf8_char_cases in Ec as [[Hc ->]|[_ F]].
    + repeat constructor; lia.
    + eapply Forall_impl; [|exact F]. simpl. intros; lia.
Qed.

Lemma replace_app (old new : Z) (a b : str) :
  replace old new (a ++ b) = replace old new a ++ replace old new b.
Proof. apply map_app. Qed.

Lemma replace_absent (old new : Z) (s : str) :
  ~ In old s -> replace old new s = s.
Proof.
  induction s as [|c s IH]; simpl; intros H; [reflexivity|].
  destruct (Z.eqb_spec c old) as [->|_]; [tauto|].
  f_equal. apply IH. tauto.
Qed.

(** After the replacement no newline is left. *)
Lemma replace_NL_free (s : str) : ~ In NL (replace NL NUL s).
Proof.
  induction s as [|c s IH]; simpl; [tauto|].
  intros [H|H]; [|tauto].
  destruct (Z.eqb_spec c NL); [discriminate|congruence].
Qed.

End Encoding.

Section Lines.

(** A line and the rest put together give the text back. *)
Lemma readline_app (s : str) : fst (readline s) ++ snd (readline s) = s.
Proof.
  induction s as [|c s IH]; simpl; [reflexivity|].
  destruct (c =? NL); simpl; [reflexivity|].
  destruct (readline s) as [l r]. simpl in *. congruence.
Qed.

(** A line is newline-free up to a newline at its end; without that
    newline the text is used up. *)
Lemma readline_shape (s : str) :
  (exists w, fst (readline s) = w ++ [NL] /\ ~ In NL w) \/
  (~ In NL (fst (readline s)) /\ snd (readline s) = []).
Proof.
  induction s as [|c s IH]; simpl.
  - right. split; [tauto|reflexivity].
  - destruct (Z.eqb_spec c NL) as [->|Hc]; simpl.
    + left. exists []. split; [reflexivity|tauto].
    + destruct (readline s) as [l r]. simpl in *.
      destruct IH as [(w & -> & Hw)|[Hl ->]].
      * left. exists (c :: w). split; [reflexivity|].
        simpl. intros [?|?]; [congruence|tauto].
      * right. split; [|reflexivity]. intros [?|?]; [congruence|tauto].
Qed.

Lemma text_lines_readline (s : str) :
  s <> [] ->
  text_lines s = fst (readline s) :: text_lines (snd (readline s)).
Proof.
  induction s as [|c s IH]; [congruence|]. intros _. simpl.
  destruct (c =? NL); simpl; [reflexivity|].
  destruct s as [|c' s']; [reflexivity|].
  rewrite IH by discriminate.
  destruct (readline (c' :: s')) as [l r]. reflexivity.
Qed.

Lemma concat_text_lines (s : str) : List.concat (text_lines s) = s.
Proof.
  induction s as [|c s IH]; simpl; [reflexivity|].
  destruct (c =? NL); simpl; [congruence|].
  destruct (text_lines s) as [|l ls]; simpl in *; congruence.
Qed.

(** What the loop reads are the lines of the text, as many as there are,
    and empty lines from then on. *)
Lemma readlines_text_lines (count : nat) (s : str) :
  readlines count s =
  firstn count (text_lines s) ++
  repeat [] (count - List.length (text_lines s)).
Proof.
  revert s. induction count as [|count IH]; intros s; [reflexivity|].
  simpl readlines. rewrite IH. destruct s as [|c s].
  - simpl. rewrite firstn_nil, Nat.sub_0_r. reflexivity.
  - rewrite (text_lines_readline (c :: s)) by discriminate. reflexivity.
Qed.

Lemma concat_repeat_nil (A : Type) (k : nat) :
  List.concat (repeat (@nil A) k) = [].
Proof. induction k; simpl; congruence. Qed.

Lemma concat_readlines (count : nat) (s : str) :
  List.concat (readlines count s) = List.concat (firstn count (text_lines s)).
Proof.
  rewrite readlines_text_lines, List.concat_app, concat_repeat_nil.
  apply app_nil_r.
Qed.

(** With no more lines than iterations the loop reads the whole text. *)
Lemma concat_readlines_all (count : nat) (s : str) :
  (List.length (text_lines s) <= count)%nat ->
  List.concat (readlines count s) = s.
Proof.
  intros H. rewrite concat_readlines, firstn_all2 by assumption.
  apply concat_text_lines.
Qed.

End Lines.

Section Loop.

(** The loop ends normally exactly when what it read can be encoded, and
    then it has appended the bytes of it to the file and added their
    number to [length]. *)
Lemma for_loop_Ok (count : nat) (i : str) (length : Z) (o o' : bytes)
      (L : Z) :
  for_loop count i length o = (o', Ok L) <->
  exists b,
    encode_utf8 (replace NL NUL (List.concat (readlines count i))) = Some b
    /\ o' = o ++ b /\ L = length + len b.
Proof.
  revert i length o. induction count as [|count IH]; intros i length o.
  - simpl. split.
    + intros [= <- <-]. exists []. rewrite app_nil_r.
      repeat split. unfold len. simpl. lia.
    + intros (b & [= <-] & -> & ->). rewrite app_nil_r.
      unfold len. simpl. do 2 f_equal. lia.
  - simpl. destruct (readline i) as [text i']. simpl fst. simpl snd.
    rewrite replace_app, encode_utf8_app.
    destruct (encode_utf8 (replace NL NUL text)) as [line|].
    + rewrite IH. split.
      * intros (b & -> & -> & ->). exists (line ++ b).
        rewrite app_assoc, len_app. repeat split. lia.
      * intros (b & E & -> & ->).
        destruct (encode_utf8 _) as [b'|]; [|discriminate].
        injection E as <-. exists b'.
        rewrite app_assoc, len_app. repeat split. lia.
    + split; [discriminate|]. intros (b & E & _). discriminate.
Qed.

(** However the loop ends, it has only appended to the file, and no
    newline. *)
Lemma for_loop_written (count : nat) (i : str) (length : Z) (o o' : bytes)
      (r : result Z) :
  for_loop count i length o = (o', r) ->
  exists b, o' = o ++ b /\ ~ In NL b.
Proof.
  revert i length o. induction count as [|count IH]; intros i length o.
  - simpl. intros [= <- _]. exists []. rewrite app_nil_r. tauto.
  - simpl. destruct (readline i) as [text i'].
    destruct (encode_utf8 (replace NL NUL text)) as [line|] eqn:E.
    + intros H. apply IH in H as (b & -> & Hb). exists (line ++ b).
      rewrite app_assoc. split; [reflexivity|].
      intros Hin. apply in_app_or in Hin as [Hin|Hin]; [|tauto].
      apply (replace_NL_free text).
      eapply encode_utf8_In; [|exact E|exact Hin]. reflexivity.
    + intros [= <- _]. exists []. rewrite app_nil_r. tauto.
Qed.

Lemma replace_first_absent (old new : Z) (s : str) :
  ~ In old s -> replace_first old new s = s.
Proof.
  induction s as [|c s IH]; simpl; intros H; [reflexivity|].
  destruct (Z.eqb_spec c old) as [->|_]; [tauto|].
  f_equal. apply IH. tauto.
Qed.

Lemma replace_first_word (old new : Z) (w r : str) :
  ~ In old w -> replace_first old new (w ++ old :: r) = w ++ new :: r.
Proof.
  induction w as [|c w IH]; simpl; intros H.
  - rewrite Z.eqb_refl. reflexivity.
  - destruct (Z.eqb_spec c old) as [->|_]; [tauto|].
    f_equal. apply IH. tauto.
Qed.

Lemma replace_word (old new : Z) (w : str) :
  ~ In old w -> replace old new (w ++ [old]) = w ++ [new].
Proof.
  intros H. rewrite replace_app, replace_absent by assumption.
  simpl. rewrite Z.eqb_refl. reflexivity.
Qed.

(** On a line of [readline] it is the same to replace every newline or
    the first one. *)
Lemma replace_readline (s : str) :
  replace NL NUL (fst (readline s)) =
  replace_first NL NUL (fst (readline s)).
Proof.
  destruct (readline_shape s) as [(w & -> & Hw)|[Hl _]].
  - rewrite replace_word, replace_first_word by assumption. reflexivity.
  - rewrite replace_absent, replace_first_absent by assumption.
    reflexivity.
Qed.

Lemma count_occ_readline (s : str) :
  (count_occ Z.eq_dec (fst (readline s)) NL <= 1)%nat.
Proof.
  destruct (readline_shape s) as [(w & -> & Hw)|[Hl _]].
  - rewrite count_occ_app. apply (count_occ_not_In Z.eq_dec) in Hw.
    rewrite Hw. simpl. destruct (Z.eq_dec NL NL); [lia|congruence].
  - apply (count_occ_not_In Z.eq_dec) in Hl. lia.
Qed.

End Loop.

Section Run.

(** A run that exits normally: the loop ended normally, with the size of
    [wordtable.bin] for [length], and both files are written. *)
Lemma run_Exit0 (n : Z) (fs : files) :
  snd (run n fs) = Exit0 ->
  exists text b,
    input_file fs = Some text /\
    for_loop (Z.to_nat n) text 0 [] = (b, Ok (len b)) /\
    fst (run n fs) =
    mkFiles (Some text) (Some b) (Some (sizes_text (len b - 1))).
Proof.
  unfold run. destruct (input_file fs) as [text|]; [|discriminate].
  destruct (for_loop (Z.to_nat n) text 0 []) as [o [L|e]] eqn:E;
    [|discriminate].
  intros _. exists text, o.
  pose proof E as E'. apply for_loop_Ok in E' as (b & _ & -> & ->).
  simpl in *. repeat split. exact E.
Qed.

(** With no more lines than [n] the run converts the whole file. *)
Lemma run_whole_file (n : Z) (fs : files) (text : str) (b : bytes) :
  input_file fs = Some text ->
  (List.length (text_lines text) <= Z.to_nat n)%nat ->
  encode_utf8 (replace NL NUL text) = Some b ->
  run n fs =
  (mkFiles (Some text) (Some b) (Some (sizes_text (len b - 1))), Exit0).
Proof.
  intros Hin Hn E. unfold run. rewrite Hin.
  assert (F : for_loop (Z.to_nat n) text 0 [] = (b, Ok (len b))).
  { apply for_loop_Ok. exists b.
    rewrite concat_readlines_all by assumption. repeat split.
    assumption. }
  rewrite F. reflexivity.
Qed.

(** With a last line that has no newline, here one that ends in an ASCII
    character [c], nothing is written after [c], and the table length that
    [sizes.c] gets counts the bytes before [c]. *)
Lemma run_unterminated (n : Z) (fs : files) (text : str) (c : Z)
      (b : bytes) :
  input_file fs = Some (text ++ [c]) ->
  0 < c < 0x80 -> c <> NL ->
  (List.length (text_lines (text ++ [c])) <= Z.to_nat n)%nat ->
  encode_utf8 (replace NL NUL text) = Some b ->
  run n fs =
  (mkFiles (Some (text ++ [c])) (Some (b ++ [c])) (Some (sizes_text (len b))),
   Exit0) /\
  last (b ++ [c]) 0 <> 0x00.
Proof.
  intros Hin Hc Hnl Hn E. split.
  - replace (len b) with (len (b ++ [c]) - 1)
      by (rewrite len_app; unfold len; simpl; lia).
    apply run_whole_file; try assumption.
    rewrite replace_app, encode_utf8_app, E. simpl.
    destruct (Z.eqb_spec c NL); [contradiction|].
    rewrite utf8_char_ascii by lia. reflexivity.
  - rewrite last_last. lia.
Qed.

(** [%d] writes different numbers differently. *)
Lemma format_d_inj (a b : Z) : format_d a = format_d b -> a = b.
Proof.
  assert (R : forall v,
             NilZero.int_of_string (format_d v) = Some (Z.to_int v)).
  { intros v. apply NilZero.isi; intros H; pose proof H as H';
      apply (f_equal Z.of_int) in H; rewrite of_to in H; simpl in H;
      subst v; discriminate. }
  intros E. apply (f_equal NilZero.int_of_string) in E.
  rewrite !R in E. injection E as E.
  apply (f_equal Z.of_int) in E. rewrite !of_to in E. exact E.
Qed.

(** The format string of the script is the fragment of the specification
    with [50000] for the number of words. *)
Lemma sizes_text_fragment (v : Z) :
  sizes_text v = constants_fragment 50000 v.
Proof. reflexivity. Qed.

End Run.

Section Words.

(** In a line a newline can only be the last character. *)
Lemma text_lines_newlines (s : str) :
  Forall (fun l => ~ In NL (removelast l)) (text_lines s).
Proof.
  induction s as [|c s IH]; simpl; [constructor|].
  destruct (Z.eqb_spec c NL) as [->|Hc].
  - constructor; [simpl; tauto | assumption].
  - destruct (text_lines s) as [|l ls].
    + repeat constructor. simpl. tauto.
    + inversion IH as [|? ? Hl Hls]; subst. constructor; [|assumption].
      destruct l as [|c' l]; [simpl; tauto|].
      change (removelast (c :: c' :: l)) with (c :: removelast (c' :: l)).
      intros [?|?]; [congruence|tauto].
Qed.

Lemma first_words_newline_free (n : Z) (text : str) (ws : list str) :
  first_words n text ws -> Forall (fun w => ~ In NL w) ws.
Proof.
  intros [H _].
  assert (F : Forall (fun l => ~ In NL (removelast l))
                     (map (fun w => w ++ [NL]) ws)).
  { rewrite <- H. rewrite <- (firstn_skipn (Z.to_nat n) (text_lines text)).
    generalize (text_lines_newlines text).
    rewrite <- (firstn_skipn (Z.to_nat n) (text_lines text)) at 1.
    intros F. apply Forall_app in F as [F _].
    rewrite firstn_skipn. exact F. }
  rewrite Forall_map in F. eapply Forall_impl; [|exact F].
  simpl. intros w Hw. rewrite removelast_last in Hw. exact Hw.
Qed.

(** The bytes of converted words: the bytes of each word and a null
    byte after it. *)
Lemma encode_words (ws : list str) (b : bytes) :
  Forall (fun w => ~ In NL w) ws ->
  encode_utf8
    (replace NL NUL (List.concat (map (fun w => w ++ [NL]) ws))) = Some b ->
  exists es,
    Forall2 (fun w e => encode_utf8 w = Some e) ws es /\
    b = List.concat (map (fun e => e ++ [NUL]) es).
Proof.
  intros F. revert b. induction F as [|w ws Hw F IH]; simpl; intros b E.
  - injection E as <-. exists []. split; [constructor|reflexivity].
  - rewrite replace_app, replace_word in E by assumption.
    apply encode_utf8_app_inv in E as (x & y & Ex & Ey & ->).
    apply encode_utf8_app_inv in Ex as (e & z & Ee & Ez & ->).
    simpl in Ez. injection Ez as <-.
    apply IH in Ey as (es & F2 & ->).
    exists (e :: es). split; [constructor; assumption|reflexivity].
Qed.

Lemma split_on_piece (d : Z) (e rest : bytes) :
  ~ In d e -> split_on d (e ++ d :: rest) = e :: split_on d rest.
Proof.
  induction e as [|x e IH]; simpl; intros H.
  - rewrite Z.eqb_refl. reflexivity.
  - destruct (Z.eqb_spec x d) as [->|_]; [tauto|].
    rewrite IH by tauto. reflexivity.
Qed.

Lemma split_on_concat (d : Z) (es : list bytes) :
  Forall (fun e => ~ In d e) es ->
  split_on d (List.concat (map (fun e => e ++ [d]) es)) = es.
Proof.
  induction 1 as [|e es He F IH]; simpl; [reflexivity|].
  rewrite <- app_assoc. simpl. rewrite split_on_piece by assumption.
  f_equal. exact IH.
Qed.

End Words.

(** * The claims *)

(** ** C1: a file with fewer lines than [NUMBER_OF_WORDS] *)

(** C1, counterexample: [readline] returns an empty line at the end of
    the file and raises nothing.  On the one-line file ["ant\n"] the script
    as configured, with 50000 iterations, exits normally, with the four
    bytes [ant\0] in [wordtable.bin] and a table length of 3 in
    [sizes.c]. *)
Lemma short_file_exits_normally :
  (List.length (text_lines (str_of_string ("ant" ++ newline)))
   < Z.to_nat NUMBER_OF_WORDS)%nat /\
  main (only_input ("ant" ++ newline)) =
  (mkFiles (Some [97; 110; 116; 10]) (Some [97; 110; 116; 0])
           (Some (constants_fragment 50000 3)),
   Exit0).
Proof.
  split.
  - apply Nat.ltb_lt. vm_compute. reflexivity.
  - vm_compute. reflexivity.
Qed.

(** C1, amended: when the source file has fewer than [NUMBER_OF_WORDS]
    lines, and its text can be encoded, the run exits normally: the lines
    read past the end are empty, [wordtable.bin] holds the conversion of the
    whole file and [sizes.c] its size less one. *)
Theorem short_file_converted_whole
        (n : Z) (fs : files) (text : str) (b : bytes) :
  input_file fs = Some text ->
  (List.length (text_lines text) < Z.to_nat n)%nat ->
  encode_utf8 (replace NL NUL text) = Some b ->
  run n fs =
  (mkFiles (Some text) (Some b) (Some (sizes_text (len b - 1))), Exit0).
Proof.
  intros Hin Hn E. apply run_whole_file; [assumption|lia|assumption].
Qed.

Lemma short_file_converted_whole_witness :
  run 3 (only_input ("ant" ++ newline)) =
  (mkFiles (Some [97; 110; 116; 10]) (Some [97; 110; 116; 0])
           (Some (sizes_text (len [97; 110; 116; 0] - 1))),
   Exit0).
Proof.
  apply (short_file_converted_whole 3 (only_input ("ant" ++ newline))
           [97; 110; 116; 10] [97; 110; 116; 0]).
  - reflexivity.
  - simpl. lia.
  - reflexivity.
Defined.

(** ** C2: the scenario of the three words *)

(** C2: with 3 for [NUMBER_OF_WORDS] and the source ["ant\nbat\ncat\n"] the
    run writes the twelve bytes [61 6E 74 00 62 61 74 00 63 61 74 00] and a
    table length of 11, but the word count in [sizes.c] is the literal 50000
    of the format string, not 3. *)
Theorem three_words_run :
  run 3 (only_input ant_bat_cat) =
  (mkFiles (Some (str_of_string ant_bat_cat))
           (Some [0x61; 0x6E; 0x74; 0x00; 0x62; 0x61; 0x74; 0x00;
                  0x63; 0x61; 0x74; 0x00])
           (Some (constants_fragment 50000 11)),
   Exit0) /\
  constants_fragment 50000 11 <> constants_fragment 3 11.
Proof.
  split.
  - vm_compute. reflexivity.
  - intros E. apply (f_equal String.length) in E. vm_compute in E.
    discriminate.
Qed.

(** ** C3: a last line without newline *)

(** C3: with 3 for [NUMBER_OF_WORDS] and the three-line source
    ["ant\nbat\ncat"], whose last line has no newline, the run exits
    normally but nothing is written after [cat]: [wordtable.bin] has eleven
    bytes and ends in [0x74], and the table length in [sizes.c] is 10. *)
Theorem unterminated_last_line_run :
  let text := str_of_string ("ant" ++ newline ++ "bat" ++ newline ++ "cat") in
  List.length (text_lines text) = 3%nat /\
  run 3 (mkFiles (Some text) None None) =
  (mkFiles (Some text)
           (Some [0x61; 0x6E; 0x74; 0x00; 0x62; 0x61; 0x74; 0x00;
                  0x63; 0x61; 0x74])
           (Some (constants_fragment 50000 10)),
   Exit0) /\
  last [0x61; 0x6E; 0x74; 0x00; 0x62; 0x61; 0x74; 0x00; 0x63; 0x61; 0x74] 0
  = 0x74.
Proof.
  repeat split; vm_compute; reflexivity.
Qed.

(** ** C4: splitting the table gives the lines back *)

Section RoundTrip.

Lemma encoded_words_free (d : Z) (ws : list str) (es : list bytes) :
  d < 0x80 ->
  Forall2 (fun w e => encode_utf8 w = Some e) ws es ->
  Forall (fun w => ~ In d w) ws -> Forall (fun e => ~ In d e) es.
Proof.
  intros Hd F2. induction F2 as [|w e ws es E F2 IH]; intros F.
  - constructor.
  - inversion F as [|? ? Hw Hws]; subst. constructor; [|apply IH, Hws].
    intros Hin. apply Hw. eapply encode_utf8_In; eassumption.
Qed.

Lemma encoded_lines (ws : list str) (es : list bytes) :
  Forall2 (fun w e => encode_utf8 w = Some e) ws es ->
  map (fun e => Some (e ++ [NL])) es =
  map encode_utf8 (map (fun w => w ++ [NL]) ws).
Proof.
  induction 1 as [|w e ws es E F2 IH]; simpl; [reflexivity|].
  rewrite encode_utf8_app, E, IH. reflexivity.
Qed.

Lemma encoded_size (ws : list str) (es : list bytes) :
  Forall2 (fun w e => encode_utf8 w = Some e) ws es ->
  len (List.concat (map (fun e => e ++ [NUL]) es)) = table_size ws.
Proof.
  unfold table_size.
  induction 1 as [|w e ws es E F2 IH]; simpl; [reflexivity|].
  rewrite !len_app, IH. unfold byte_length. rewrite E. reflexivity.
Qed.

(** The table of a normal run on a file whose first [n] lines are the
    words [ws]. *)
Lemma run_first_words (n : Z) (fs : files) (text : str) (ws : list str) :
  input_file fs = Some text ->
  first_words n text ws ->
  snd (run n fs) = Exit0 ->
  exists es,
    Forall2 (fun w e => encode_utf8 w = Some e) ws es /\
    wordtable_bin (fst (run n fs)) =
    Some (List.concat (map (fun e => e ++ [NUL]) es)).
Proof.
  intros Hin Hws Hrun.
  pose proof (first_words_newline_free _ _ _ Hws) as Hfree.
  destruct Hws as [Hlines _].
  apply run_Exit0 in Hrun as (text' & b & Hin' & Hloop & ->).
  assert (text' = text) by congruence. subst text'.
  apply for_loop_Ok in Hloop as (b' & E & Hb & _).
  simpl in Hb. subst b'.
  rewrite concat_readlines, Hlines in E.
  apply encode_words in E as (es & F2 & ->); [|assumption].
  exists es. split; [assumption|reflexivity].
Qed.

End RoundTrip.

(** C4, counterexample: a word with a null character in it.  With 1 for
    [NUMBER_OF_WORDS] and the one-line source ["a\0b\n"] the table is
    [a\0b\0], and splitting it at the null bytes gives two byte-strings,
    not one. *)
Lemma null_in_word_splits_twice :
  let text := [97; 0; 98; 10] in
  first_words 1 text [[97; 0; 98]] /\
  run 1 (mkFiles (Some text) None None) =
  (mkFiles (Some text) (Some [97; 0; 98; 0])
           (Some (constants_fragment 50000 3)),
   Exit0) /\
  split_on 0 [97; 0; 98; 0] = [[97]; [98]] /\
  List.length (split_on 0 [97; 0; 98; 0]) <> Z.to_nat 1.
Proof.
  repeat split; vm_compute; congruence.
Qed.

(** C4, amended: when the first [NUMBER_OF_WORDS] lines of the source are
    newline-terminated and none of these words has a null character in it,
    then after a normal run the pieces that the null bytes of
    [wordtable.bin] end are [NUMBER_OF_WORDS] byte-strings, and each of them
    followed by a newline byte is the UTF-8 encoding of the line of the
    same rank. *)
Theorem split_table_gives_lines
        (n : Z) (fs : files) (text : str) (ws : list str) :
  input_file fs = Some text ->
  first_words n text ws ->
  Forall (fun w => ~ In NUL w) ws ->
  snd (run n fs) = Exit0 ->
  exists b,
    wordtable_bin (fst (run n fs)) = Some b /\
    List.length (split_on 0x00 b) = Z.to_nat n /\
    map (fun e => Some (e ++ [0x0A])) (split_on 0x00 b) =
    map encode_utf8 (firstn (Z.to_nat n) (text_lines text)).
Proof.
  intros Hin Hws Hnul Hrun.
  destruct (run_first_words n fs text ws Hin Hws Hrun) as (es & F2 & Hb).
  exists (List.concat (map (fun e => e ++ [NUL]) es)).
  split; [assumption|].
  assert (Hes : Forall (fun e => ~ In 0 e) es).
  { eapply (encoded_words_free 0); [reflexivity|exact F2|exact Hnul]. }
  change 0x00 with NUL. rewrite (split_on_concat NUL) by exact Hes.
  destruct Hws as [Hlines Hlen]. split.
  - rewrite <- (Forall2_length F2). exact Hlen.
  - rewrite Hlines. apply encoded_lines. exact F2.
Qed.

Lemma split_table_gives_lines_witness :
  exists b,
    wordtable_bin (fst (run 3 (only_input ant_bat_cat))) = Some b /\
    List.length (split_on 0x00 b) = Z.to_nat 3 /\
    map (fun e => Some (e ++ [0x0A])) (split_on 0x00 b) =
    map encode_utf8
        (firstn (Z.to_nat 3) (text_lines (str_of_string ant_bat_cat))).
Proof.
  apply (split_table_gives_lines 3 (only_input ant_bat_cat)
           (str_of_string ant_bat_cat)
           [[97; 110; 116]; [98; 97; 116]; [99; 97; 116]]).
  - reflexivity.
  - split; reflexivity.
  - repeat constructor; simpl; unfold NUL; lia.
  - reflexivity.
Defined.

(** ** C5: the emitted table length *)

(** C5: after a normal run the loop has ended with the number of bytes of
    [wordtable.bin] for [length], and the table length written to [sizes.c]
    is that number less one. *)
Theorem strlen_is_size_less_one (n : Z) (fs : files) :
  snd (run n fs) = Exit0 ->
  exists text b,
    input_file fs = Some text /\
    for_loop (Z.to_nat n) text 0 [] = (b, Ok (len b)) /\
    wordtable_bin (fst (run n fs)) = Some b /\
    sizes_c (fst (run n fs)) = Some (constants_fragment 50000 (len b - 1)).
Proof.
  intros Hrun. apply run_Exit0 in Hrun as (text & b & Hin & Hloop & ->).
  exists text, b. repeat split; assumption.
Qed.

Lemma strlen_is_size_less_one_witness :
  exists text b,
    input_file (only_input ant_bat_cat) = Some text /\
    for_loop (Z.to_nat 3) text 0 [] = (b, Ok (len b)) /\
    wordtable_bin (fst (run 3 (only_input ant_bat_cat))) = Some b /\
    sizes_c (fst (run 3 (only_input ant_bat_cat))) =
    Some (constants_fragment 50000 (len b - 1)).
Proof.
  apply (strlen_is_size_less_one 3 (only_input ant_bat_cat)).
  reflexivity.
Defined.

(** ** C6: the size of the table *)

(** C6: when the first [NUMBER_OF_WORDS] lines of the source are
    newline-terminated, then after a normal run the number of bytes of
    [wordtable.bin] is the sum, over these words, of the number of bytes of
    the word without its newline and of one more for its delimiter. *)
Theorem table_size_is_sum_of_words
        (n : Z) (fs : files) (text : str) (ws : list str) :
  input_file fs = Some text ->
  first_words n text ws ->
  snd (run n fs) = Exit0 ->
  exists b,
    wordtable_bin (fst (run n fs)) = Some b /\
    len b = table_size ws.
Proof.
  intros Hin Hws Hrun.
  destruct (run_first_words n fs text ws Hin Hws Hrun) as (es & F2 & Hb).
  exists (List.concat (map (fun e => e ++ [NUL]) es)).
  split; [assumption|]. apply encoded_size. exact F2.
Qed.

Lemma table_size_is_sum_of_words_witness :
  exists b,
    wordtable_bin (fst (run 3 (only_input ant_bat_cat))) = Some b /\
    len b = table_size [[97; 110; 116]; [98; 97; 116]; [99; 97; 116]].
Proof.
  apply (table_size_is_sum_of_words 3 (only_input ant_bat_cat)
           (str_of_string ant_bat_cat)).
  - reflexivity.
  - split; reflexivity.
  - reflexivity.
Defined.

(** ** C7: the structure of [sizes.c] *)

(** C7: the word count written to [sizes.c] is not the configured one.
    The format string of the script is the fragment of the specification
    with the literal 50000 for the count, whatever [NUMBER_OF_WORDS] is.
    With 1 for [NUMBER_OF_WORDS] and the source ["zzz\n"], the run writes
    [7A 7A 7A 00] and a [sizes.c] of the right structure and table length,
    3, but with the word count 50000, not 1. *)
Theorem configured_count_not_emitted :
  (forall v : Z, sizes_text v = constants_fragment 50000 v) /\
  run 1 (only_input ("zzz" ++ newline)) =
  (mkFiles (Some [122; 122; 122; 10])
           (Some [0x7A; 0x7A; 0x7A; 0x00])
           (Some (constants_fragment 50000 3)),
   Exit0) /\
  constants_fragment 50000 3 <> constants_fragment 1 3.
Proof.
  split; [|split].
  - intros v. reflexivity.
  - vm_compute. reflexivity.
  - intros E. apply (f_equal String.length) in E. vm_compute in E.
    discriminate.
Qed.

(** ** C8: two runs on the same source *)

Section Determinism.

(** A run is a function of the source, up to the [sizes.c] that a failed
    run leaves as it was. *)
Lemma run_with_input (n : Z) (fs : files) (text : str) :
  input_file fs = Some text ->
  run n fs =
  match for_loop (Z.to_nat n) text 0 [] with
  | (o, Ok length) =>
      (mkFiles (Some text) (Some o) (Some (sizes_text (length - 1))),
       Exit0)
  | (o, Raise e) =>
      (mkFiles (Some text) (Some o) (sizes_c fs), Traceback e)
  end.
Proof.
  intros Hin. unfold run. rewrite Hin.
  destruct (for_loop (Z.to_nat n) text 0 []) as [o [L|e]]; simpl;
    rewrite ?Hin; reflexivity.
Qed.

(** X12: the files a run leaves are left as they are by a second run,
    which ends as the first. *)
Lemma second_run_changes_nothing (n : Z) (fs : files) :
  run n (fst (run n fs)) = run n fs.
Proof.
  destruct (input_file fs) as [text|] eqn:Hin.
  - rewrite (run_with_input n fs text Hin).
    destruct (for_loop (Z.to_nat n) text 0 []) as [o [L|e]] eqn:E; simpl.
    + rewrite (run_with_input n (mkFiles (Some text) _ _) text eq_refl), E.
      reflexivity.
    + rewrite (run_with_input n (mkFiles (Some text) _ _) text eq_refl), E.
      reflexivity.
  - unfold run. rewrite Hin. simpl. rewrite Hin. reflexivity.
Qed.

End Determinism.

(** C8: two runs with the same configuration from file systems with the
    same source file, whatever their output files were before, end the same
    way and with the same bytes in [wordtable.bin]; when they exit normally
    they leave the same [sizes.c]; and the source file is as it was. *)
Theorem same_source_same_outputs (n : Z) (fs1 fs2 : files) (text : str) :
  input_file fs1 = Some text ->
  input_file fs2 = Some text ->
  snd (run n fs1) = snd (run n fs2) /\
  wordtable_bin (fst (run n fs1)) = wordtable_bin (fst (run n fs2)) /\
  (snd (run n fs1) = Exit0 ->
   sizes_c (fst (run n fs1)) = sizes_c (fst (run n fs2))) /\
  input_file (fst (run n fs1)) = Some text.
Proof.
  intros H1 H2.
  rewrite (run_with_input n fs1 text H1), (run_with_input n fs2 text H2).
  destruct (for_loop (Z.to_nat n) text 0 []) as [o [L|e]]; simpl.
  - repeat split.
  - repeat split. discriminate.
Qed.

Lemma same_source_same_outputs_witness :
  let fs1 := only_input ant_bat_cat in
  let fs2 := mkFiles (Some (str_of_string ant_bat_cat))
                     (Some [1; 2; 3]) (Some "stale"%string) in
  snd (run 3 fs1) = snd (run 3 fs2) /\
  wordtable_bin (fst (run 3 fs1)) = wordtable_bin (fst (run 3 fs2)) /\
  (snd (run 3 fs1) = Exit0 ->
   sizes_c (fst (run 3 fs1)) = sizes_c (fst (run 3 fs2))) /\
  input_file (fst (run 3 fs1)) = Some (str_of_string ant_bat_cat).
Proof.
  apply (same_source_same_outputs 3 (only_input ant_bat_cat)
           (mkFiles (Some (str_of_string ant_bat_cat))
                    (Some [1; 2; 3]) (Some "stale"%string))
           (str_of_string ant_bat_cat)).
  - reflexivity.
  - reflexivity.
Defined.

(** ** C9: every newline or the first one *)

(** C9: a line that [readline] returns has at most one newline, so to
    replace every newline of it, as the script does, is to replace the
    first one, as the specification says; and the loop of the script is the
    loop of the specification. *)
Theorem replace_all_is_replace_first :
  (forall s : str,
      (count_occ Z.eq_dec (fst (readline s)) NL <= 1)%nat /\
      replace NL NUL (fst (readline s)) =
      replace_first NL NUL (fst (readline s))) /\
  (forall (count : nat) (i : str) (length : Z) (o : bytes),
      for_loop count i length o = spec_loop count i length o).
Proof.
  split.
  - intros s. split; [apply count_occ_readline | apply replace_readline].
  - induction count as [|count IH]; intros i length o; [reflexivity|].
    simpl. pose proof (replace_readline i) as R.
    destruct (readline i) as [text i']. simpl in R. rewrite <- R.
    destruct (encode_utf8 (replace NL NUL text)); [apply IH|reflexivity].
Qed.

(** ** C10: no newline byte in the table *)

(** C10: whenever the source file can be opened, whatever the number of
    iterations and however the run ends, [wordtable.bin] is written and has
    no byte [0x0A] in it. *)
Theorem wordtable_has_no_newline (n : Z) (fs : files) (text : str) :
  input_file fs = Some text ->
  exists b, wordtable_bin (fst (run n fs)) = Some b /\ ~ In 0x0A b.
Proof.
  intros Hin. rewrite (run_with_input n fs text Hin).
  destruct (for_loop (Z.to_nat n) text 0 []) as [o r] eqn:E.
  apply for_loop_written in E as (b & -> & Hb).
  exists b. split; [destruct r; reflexivity | exact Hb].
Qed.

Lemma wordtable_has_no_newline_witness :
  exists b,
    wordtable_bin (fst (run 3 (only_input ant_bat_cat))) = Some b /\
    ~ In 0x0A b.
Proof.
  apply (wordtable_has_no_newline 3 (only_input ant_bat_cat)
           (str_of_string ant_bat_cat)).
  reflexivity.
Defined.

(** * Further properties of the script *)

Section FirstLines.

Lemma for_loop_Raise_exn (count : nat) (i : str) (length : Z)
      (o o' : bytes) (e : exn) :
  for_loop count i length o = (o', Raise e) -> e = UnicodeEncodeError.
Proof.
  revert i length o. induction count as [|count IH]; intros i length o.
  - discriminate.
  - simpl. destruct (readline i) as [text i'].
    destruct (encode_utf8 (replace NL NUL text)).
    + apply IH.
    + intros [= _ <-]. reflexivity.
Qed.

(** The run on a source that can be opened, by what UTF-8 makes of its
    first [n] lines. *)
Lemma run_by_first_lines (n : Z) (fs : files) (text : str) :
  input_file fs = Some text ->
  match encode_utf8 (replace NL NUL (first_lines n text)) with
  | Some b =>
      run n fs =
      (mkFiles (Some text) (Some b) (Some (sizes_text (len b - 1))), Exit0)
  | None => snd (run n fs) = Traceback UnicodeEncodeError
  end.
Proof.
  intros Hin. rewrite (run_with_input n fs text Hin). unfold first_lines.
  destruct (for_loop (Z.to_nat n) text 0 []) as [o [L|e]] eqn:E.
  - apply for_loop_Ok in E as (b & Eb & -> & ->).
    rewrite concat_readlines in Eb. rewrite Eb. reflexivity.
  - destruct (encode_utf8 _) as [b|] eqn:Eb.
    + rewrite <- concat_readlines in Eb.
      assert (F : for_loop (Z.to_nat n) text 0 [] = ([] ++ b, Ok (0 + len b)))
        by (apply for_loop_Ok; exists b; repeat split; assumption).
      rewrite F in E. discriminate.
    + apply for_loop_Raise_exn in E. subst e. reflexivity.
Qed.

(** The first lines are the beginning of the text. *)
Lemma first_lines_prefix (n : Z) (text : str) :
  first_lines n text ++
  List.concat (skipn (Z.to_nat n) (text_lines text)) = text.
Proof.
  unfold first_lines. rewrite <- List.concat_app, firstn_skipn.
  apply concat_text_lines.
Qed.

Lemma first_lines_Forall (P : Z -> Prop) (n : Z) (text : str) :
  Forall P text -> Forall P (first_lines n text).
Proof.
  intros F. rewrite <- (first_lines_prefix n text) in F.
  apply Forall_app in F. tauto.
Qed.

(** The loop is a function of the lines it reads. *)
Lemma for_loop_readlines (count : nat) (i1 i2 : str) (length : Z)
      (o : bytes) :
  readlines count i1 = readlines count i2 ->
  for_loop count i1 length o = for_loop count i2 length o.
Proof.
  revert i1 i2 length o.
  induction count as [|count IH]; intros i1 i2 length o; [reflexivity|].
  simpl. destruct (readline i1) as [t1 r1], (readline i2) as [t2 r2].
  simpl. intros [= <- Hr].
  destruct (encode_utf8 (replace NL NUL t1)); [|reflexivity].
  apply IH. exact Hr.
Qed.

Lemma readlines_first_lines (count : nat) (s1 s2 : str) :
  firstn count (text_lines s1) = firstn count (text_lines s2) ->
  readlines count s1 = readlines count s2.
Proof.
  intros H. rewrite !readlines_text_lines, H. f_equal. f_equal.
  apply (f_equal (@List.length str)) in H. rewrite !length_firstn in H.
  lia.
Qed.

Lemma readlines_nil (count : nat) :
  List.concat (readlines count []) = [].
Proof. induction count as [|count IH]; simpl; [reflexivity|exact IH]. Qed.

End FirstLines.

Section Surrogates.

(** Of the code points, UTF-8 refuses the surrogates and no other. *)
Lemma utf8_char_None (c : Z) :
  code_point c -> utf8_char c = None <-> surrogate c.
Proof.
  unfold code_point, surrogate, utf8_char. intros Hc.
  destruct (Z.ltb_spec c 0); [lia|].
  destruct (Z.ltb_spec c 0x80); [split; [discriminate|lia]|].
  destruct (Z.ltb_spec c 0x800); [split; [discriminate|lia]|].
  destruct (Z.leb_spec 0xD800 c); simpl.
  - destruct (Z.leb_spec c 0xDFFF); [split; [lia|reflexivity]|].
    destruct (Z.ltb_spec c 0x10000); [split; [discriminate|lia]|].
    destruct (Z.ltb_spec c 0x110000); [split; [discriminate|lia]|lia].
  - destruct (Z.ltb_spec c 0x10000); [split; [discriminate|lia]|lia].
Qed.

Lemma encode_replace_None (s : str) :
  Forall code_point s ->
  encode_utf8 (replace NL NUL s) = None <-> Exists surrogate s.
Proof.
  induction 1 as [|c s Hc F IH]; simpl.
  - split; [discriminate|]. intros H. inversion H.
  - rewrite Exists_cons, <- IH.
    assert (Hc' : utf8_char (if c =? NL then NUL else c) = None
                  <-> surrogate c).
    { destruct (Z.eqb_spec c NL) as [->|_].
      - unfold surrogate, NL. split; [discriminate|lia].
      - apply utf8_char_None, Hc. }
    rewrite <- Hc'.
    destruct (utf8_char (if c =? NL then NUL else c));
      destruct (encode_utf8 (replace NL NUL s)); split;
      try tauto; try discriminate; intros [?|?]; discriminate.
Qed.

End Surrogates.

(** X1: on a source text of code points without surrogates, which is
    every text that strict decoding delivers, the run exits normally
    whatever the word count: [wordtable.bin] is the UTF-8 encoding of the
    first [NUMBER_OF_WORDS] lines, or of all the lines when the file has
    fewer, with each newline replaced by a null character, and [sizes.c]
    carries its size less one.  [UnicodeEncodeError] is not raised. *)
Theorem decoded_source_always_converted (n : Z) (fs : files) (text : str) :
  input_file fs = Some text ->
  Forall (fun c => code_point c /\ ~ surrogate c) text ->
  exists b,
    encode_utf8 (replace NL NUL (first_lines n text)) = Some b /\
    run n fs =
    (mkFiles (Some text) (Some b) (Some (sizes_text (len b - 1))), Exit0).
Proof.
  intros Hin F. pose proof (run_by_first_lines n fs text Hin) as R.
  apply (first_lines_Forall _ n) in F. apply Forall_and_inv in F as [Fc Fs].
  pose proof (encode_replace_None (first_lines n text) Fc) as S.
  destruct (encode_utf8 (replace NL NUL (first_lines n text))) as [b|].
  - exists b. split; [reflexivity|exact R].
  - exfalso. assert (Ex : Exists surrogate (first_lines n text))
      by (apply S; reflexivity).
    apply Exists_exists in Ex as (c & Hin' & Hc).
    rewrite Forall_forall in Fs. exact (Fs c Hin' Hc).
Qed.

Lemma decoded_source_always_converted_witness :
  let text := [0xE9; 0x20AC; 10; 0x1F600; 10; 97] in
  exists b,
    encode_utf8 (replace NL NUL (first_lines 2 text)) = Some b /\
    run 2 (mkFiles (Some text) None None) =
    (mkFiles (Some text) (Some b) (Some (sizes_text (len b - 1))), Exit0).
Proof.
  apply (decoded_source_always_converted 2
           (mkFiles (Some [0xE9; 0x20AC; 10; 0x1F600; 10; 97]) None None)
           [0xE9; 0x20AC; 10; 0x1F600; 10; 97]).
  - reflexivity.
  - repeat constructor; unfold code_point, surrogate; lia.
Defined.

(** X2: of the text of the source the run uses the first
    [NUMBER_OF_WORDS] lines and nothing after them: two source texts with
    the same first lines, whatever lines follow them, give the same exit
    status, the same [wordtable.bin] and, on a normal exit, the same
    [sizes.c]. *)
Theorem run_ignores_later_lines
        (n : Z) (fs1 fs2 : files) (text1 text2 : str) :
  input_file fs1 = Some text1 ->
  input_file fs2 = Some text2 ->
  firstn (Z.to_nat n) (text_lines text1) =
  firstn (Z.to_nat n) (text_lines text2) ->
  snd (run n fs1) = snd (run n fs2) /\
  wordtable_bin (fst (run n fs1)) = wordtable_bin (fst (run n fs2)) /\
  (snd (run n fs1) = Exit0 ->
   sizes_c (fst (run n fs1)) = sizes_c (fst (run n fs2))).
Proof.
  intros H1 H2 Hl.
  rewrite (run_with_input n fs1 text1 H1), (run_with_input n fs2 text2 H2).
  rewrite (for_loop_readlines _ text1 text2)
    by (apply readlines_first_lines; exact Hl).
  destruct (for_loop (Z.to_nat n) text2 0 []) as [o [L|e]]; simpl.
  - repeat split.
  - repeat split. discriminate.
Qed.

Lemma run_ignores_later_lines_witness :
  let fs1 := only_input ant_bat_cat in
  let fs2 := only_input ("ant" ++ newline ++ "zebra" ++ newline ++ "yak") in
  snd (run 1 fs1) = snd (run 1 fs2) /\
  wordtable_bin (fst (run 1 fs1)) = wordtable_bin (fst (run 1 fs2)) /\
  (snd (run 1 fs1) = Exit0 ->
   sizes_c (fst (run 1 fs1)) = sizes_c (fst (run 1 fs2))).
Proof.
  apply (run_ignores_later_lines 1 (only_input ant_bat_cat)
           (only_input ("ant" ++ newline ++ "zebra" ++ newline ++ "yak"))
           (str_of_string ant_bat_cat)
           (str_of_string
              ("ant" ++ newline ++ "zebra" ++ newline ++ "yak"))).
  - reflexivity.
  - reflexivity.
  - reflexivity.
Defined.

Section Ascii.

Lemma encode_utf8_ascii (s : str) :
  Forall ascii_char s -> encode_utf8 s = Some s.
Proof.
  induction 1 as [|c s Hc F IH]; simpl; [reflexivity|].
  rewrite utf8_char_ascii, IH by exact Hc. reflexivity.
Qed.

Lemma replace_ascii (s : str) :
  Forall ascii_char s -> Forall ascii_char (replace NL NUL s).
Proof.
  intros F. apply Forall_map. eapply Forall_impl; [|exact F].
  intros c Hc. simpl. destruct (c =? NL); [|exact Hc].
  unfold ascii_char, NUL. lia.
Qed.

Lemma len_replace (old new : Z) (s : str) : len (replace old new s) = len s.
Proof. unfold len, replace. rewrite length_map. reflexivity. Qed.

End Ascii.

(** X5: on a source of ASCII characters the run always exits normally;
    [wordtable.bin] is the text of the first [NUMBER_OF_WORDS] lines, byte
    for character, with each newline turned into a null byte, and the
    table length in [sizes.c] is the number of these characters less
    one. *)
Theorem ascii_source_byte_for_character (n : Z) (fs : files) (text : str) :
  input_file fs = Some text ->
  Forall ascii_char text ->
  run n fs =
  (mkFiles (Some text)
           (Some (replace NL NUL (first_lines n text)))
           (Some (sizes_text (len (first_lines n text) - 1))),
   Exit0).
Proof.
  intros Hin F. pose proof (run_by_first_lines n fs text Hin) as R.
  rewrite encode_utf8_ascii in R
    by (apply replace_ascii, first_lines_Forall, F).
  rewrite len_replace in R. exact R.
Qed.

Lemma ascii_source_byte_for_character_witness :
  run 2 (only_input ant_bat_cat) =
  (mkFiles (Some (str_of_string ant_bat_cat))
           (Some (replace NL NUL
                    (first_lines 2 (str_of_string ant_bat_cat))))
           (Some (sizes_text
                    (len (first_lines 2 (str_of_string ant_bat_cat)) - 1))),
   Exit0).
Proof.
  apply (ascii_source_byte_for_character 2 (only_input ant_bat_cat)
           (str_of_string ant_bat_cat)).
  - reflexivity.
  - repeat constructor; unfold ascii_char; simpl; lia.
Defined.

(** X7: with an empty source, or with a word count of zero or less, the
    run exits normally with an empty [wordtable.bin], and [sizes.c]
    declares the table length [-1]. *)
Theorem empty_table_has_length_minus_one (n : Z) (fs : files) (text : str) :
  input_file fs = Some text ->
  text = [] \/ n <= 0 ->
  run n fs =
  (mkFiles (Some text) (Some []) (Some (constants_fragment 50000 (-1))),
   Exit0) /\
  format_d (-1) = "-1"%string.
Proof.
  intros Hin H. split; [|reflexivity].
  pose proof (run_by_first_lines n fs text Hin) as R.
  assert (E : first_lines n text = []).
  { unfold first_lines. destruct H as [->|Hn].
    - simpl. rewrite firstn_nil. reflexivity.
    - replace (Z.to_nat n) with 0%nat by lia. reflexivity. }
  rewrite E in R. exact R.
Qed.

Lemma empty_table_has_length_minus_one_witness :
  run NUMBER_OF_WORDS (mkFiles (Some []) None None) =
  (mkFiles (Some []) (Some []) (Some (constants_fragment 50000 (-1))),
   Exit0) /\
  format_d (-1) = "-1"%string.
Proof.
  apply (empty_table_has_length_minus_one NUMBER_OF_WORDS
           (mkFiles (Some []) None None) []).
  - reflexivity.
  - left. reflexivity.
Defined.

Section Sizes.

Lemma utf8_char_length (c : Z) (b : bytes) :
  utf8_char c = Some b -> (1 <= List.length b <= 4)%nat.
Proof.
  unfold utf8_char.
  repeat match goal with
         | |- context [if ?t then _ else _] => destruct t
         end;
    intros E; try discriminate;
    apply (f_equal (option_map (@List.length Z))) in E;
    simpl in E; injection E as <-; lia.
Qed.

Lemma encode_utf8_length (s : str) (b : bytes) :
  encode_utf8 s = Some b -> len s <= len b <= 4 * len s.
Proof.
  unfold len. revert b. induction s as [|c s IH]; simpl; intros b E.
  - injection E as <-. simpl. lia.
  - destruct (utf8_char c) as [x|] eqn:Ec; [|discriminate].
    destruct (encode_utf8 s) as [y|]; [|discriminate].
    injection E as <-. apply utf8_char_length in Ec.
    specialize (IH y eq_refl). rewrite length_app. lia.
Qed.

End Sizes.

(** X8: after a normal run every value in [wordtable.bin] is a byte, from
    0 to 255, and the file has at least as many bytes as the first
    [NUMBER_OF_WORDS] lines have characters and at most four times as
    many. *)
Theorem wordtable_bytes_and_size (n : Z) (fs : files) (text : str) :
  input_file fs = Some text ->
  snd (run n fs) = Exit0 ->
  exists b,
    wordtable_bin (fst (run n fs)) = Some b /\
    Forall (fun x => 0 <= x <= 255) b /\
    len (first_lines n text) <= len b <= 4 * len (first_lines n text).
Proof.
  intros Hin Hrun. pose proof (run_by_first_lines n fs text Hin) as R.
  destruct (encode_utf8 (replace NL NUL (first_lines n text))) as [b|] eqn:E.
  - exists b. rewrite R. split; [reflexivity|]. split.
    + apply encode_utf8_bytes in E. eapply Forall_impl; [|exact E].
      simpl. intros; lia.
    + apply encode_utf8_length in E. rewrite len_replace in E. exact E.
  - rewrite R in Hrun. discriminate.
Qed.

Lemma wordtable_bytes_and_size_witness :
  let text := [0xE9; 0x20AC; 10; 0x1F600; 10] in
  exists b,
    wordtable_bin (fst (run 2 (mkFiles (Some text) None None))) = Some b /\
    Forall (fun x => 0 <= x <= 255) b /\
    len (first_lines 2 text) <= len b <= 4 * len (first_lines 2 text).
Proof.
  apply (wordtable_bytes_and_size 2
           (mkFiles (Some [0xE9; 0x20AC; 10; 0x1F600; 10]) None None)
           [0xE9; 0x20AC; 10; 0x1F600; 10]).
  - reflexivity.
  - reflexivity.
Defined.

Section Pieces.

Lemma strip_newline_word (w : str) : strip_newline (w ++ [NL]) = w.
Proof.
  induction w as [|c w IH]; [reflexivity|].
  change ((c :: w) ++ [NL]) with (c :: (w ++ [NL])).
  simpl strip_newline. rewrite IH.
  destruct (w ++ [NL]) eqn:E; [|reflexivity].
  destruct w; discriminate.
Qed.

Lemma strip_newline_absent (l : str) : ~ In NL l -> strip_newline l = l.
Proof.
  induction l as [|c l IH]; [reflexivity|]. intros H.
  simpl strip_newline. destruct l as [|c' l'].
  - destruct (Z.eqb_spec c NL) as [->|_]; [|reflexivity].
    exfalso. apply H. left. reflexivity.
  - rewrite IH; [reflexivity|]. intros Hin. apply H. right. exact Hin.
Qed.

Lemma split_on_free (d : Z) (e : bytes) :
  ~ In d e -> e <> [] -> split_on d e = [e].
Proof.
  induction e as [|x e IH]; [congruence|]. intros H _. simpl.
  destruct (Z.eqb_spec x d) as [->|_]; [exfalso; apply H; left; reflexivity|].
  destruct e as [|y e]; [reflexivity|].
  rewrite IH; [reflexivity| |discriminate].
  intros Hin. apply H. right. exact Hin.
Qed.

(** Where the text has no null character, the null bytes of the converted
    lines end the words of the lines, one for one; a last line without
    newline is a piece too. *)
Lemma split_converted (count : nat) (s : str) (b : bytes) :
  ~ In NUL s ->
  encode_utf8 (replace NL NUL (List.concat (readlines count s))) = Some b ->
  map Some (split_on 0 b) =
  map (fun l => encode_utf8 (strip_newline l)) (firstn count (text_lines s)).
Proof.
  revert s b. induction count as [|count IH]; intros s b Hs E.
  - simpl in E. injection E as <-. reflexivity.
  - destruct s as [|c0 s0].
    + rewrite (readlines_nil (S count)) in E. simpl in E.
      injection E as <-. reflexivity.
    + remember (c0 :: s0) as s eqn:Es.
      assert (Hne : s <> []) by (subst s; discriminate).
      rewrite (text_lines_readline s Hne). simpl firstn. simpl map.
      simpl readlines in E. simpl List.concat in E.
      pose proof (readline_app s) as Happ.
      destruct (readline_shape s) as [(w & Hl & Hw)|[Hl Hr]].
      * rewrite Hl in *. rewrite <- Happ in Hs.
        rewrite replace_app, replace_word in E by assumption.
        apply encode_utf8_app_inv in E as (x & b' & Ex & Eb' & ->).
        apply encode_utf8_app_inv in Ex as (e & z & Ee & Ez & ->).
        simpl in Ez. injection Ez as <-.
        assert (He : ~ In 0 e).
        { intros Hin. apply Hs. apply in_or_app. left.
          apply in_or_app. left.
          eapply (encode_utf8_In 0); [reflexivity|exact Ee|exact Hin]. }
        rewrite <- app_assoc. simpl app.
        rewrite split_on_piece by exact He.
        rewrite strip_newline_word, Ee. simpl map. f_equal.
        apply IH; [|exact Eb'].
        intros Hin. apply Hs. apply in_or_app. right. exact Hin.
      * rewrite Hr in *. rewrite app_nil_r in Happ.
        rewrite Happ in *. rewrite readlines_nil, app_nil_r in E.
        rewrite replace_absent in E by exact Hl.
        assert (Hb0 : ~ In 0 b).
        { intros Hin. apply Hs.
          eapply (encode_utf8_In 0); [reflexivity|exact E|exact Hin]. }
        assert (Hbne : b <> []).
        { intros ->. apply encode_utf8_length in E.
          destruct s; [congruence|]. unfold len in E. simpl in E. lia. }
        rewrite split_on_free by assumption.
        rewrite strip_newline_absent, E by exact Hl.
        simpl. rewrite firstn_nil. reflexivity.
Qed.

Lemma first_lines_le (n m : Z) (text : str) :
  n <= m ->
  exists rest, first_lines m text = first_lines n text ++ rest.
Proof.
  intros H. unfold first_lines.
  exists (List.concat (skipn (Z.to_nat n)
                             (firstn (Z.to_nat m) (text_lines text)))).
  rewrite <- List.concat_app.
  replace (firstn (Z.to_nat n) (text_lines text))
    with (firstn (Z.to_nat n) (firstn (Z.to_nat m) (text_lines text))).
  - rewrite firstn_skipn. reflexivity.
  - rewrite firstn_firstn. f_equal. lia.
Qed.

Lemma utf8_char_nulls (c : Z) (x : bytes) :
  utf8_char c = Some x ->
  count_occ Z.eq_dec x 0 = if c =? 0 then 1%nat else 0%nat.
Proof.
  intros E. apply utf8_char_cases in E as [[Hc ->]|[Hc F]].
  - simpl. destruct (Z.eq_dec c 0) as [->|Hn]; [reflexivity|].
    destruct (Z.eqb_spec c 0); [contradiction|reflexivity].
  - destruct (Z.eqb_spec c 0); [lia|].
    apply count_occ_not_In. intros Hin.
    rewrite Forall_forall in F. apply F in Hin. lia.
Qed.

(** A null byte of the converted text comes from a newline or from a null
    character, one for one. *)
Lemma encode_replace_nulls (s : str) (b : bytes) :
  encode_utf8 (replace NL NUL s) = Some b ->
  count_occ Z.eq_dec b 0 =
  (count_occ Z.eq_dec s NL + count_occ Z.eq_dec s NUL)%nat.
Proof.
  revert b. induction s as [|c s IH]; simpl; intros b E.
  - injection E as <-. reflexivity.
  - destruct (utf8_char (if c =? NL then NUL else c)) as [x|] eqn:Ec;
      [|discriminate].
    destruct (encode_utf8 (replace NL NUL s)) as [y|]; [|discriminate].
    injection E as <-. rewrite count_occ_app, (IH y eq_refl).
    apply utf8_char_nulls in Ec. rewrite Ec.
    destruct (Z.eqb_spec c NL) as [->|Hnl].
    + simpl. destruct (Z.eq_dec NL NL); [|congruence].
      destruct (Z.eq_dec NL NUL); [discriminate|]. lia.
    + destruct (Z.eq_dec c NL); [contradiction|].
      destruct (Z.eqb_spec c 0) as [->|Hz].
      * destruct (Z.eq_dec 0 NUL); [lia|]. unfold NUL in *. congruence.
      * destruct (Z.eq_dec c NUL); [unfold NUL in *; congruence|lia].
Qed.

End Pieces.

(** X9: when the source has no null character, then after a normal run
    the pieces that the null bytes of [wordtable.bin] end, with what
    follows the last null byte as a last piece, are the UTF-8 encodings of
    the first [NUMBER_OF_WORDS] lines without their newlines, in order;
    this holds also for a file with fewer lines and for a last line without
    newline. *)
Theorem split_table_gives_words (n : Z) (fs : files) (text : str) :
  input_file fs = Some text ->
  ~ In NUL text ->
  snd (run n fs) = Exit0 ->
  exists b,
    wordtable_bin (fst (run n fs)) = Some b /\
    map Some (split_on 0x00 b) =
    map (fun l => encode_utf8 (strip_newline l))
        (firstn (Z.to_nat n) (text_lines text)).
Proof.
  intros Hin Hnul Hrun.
  apply run_Exit0 in Hrun as (text' & b & Hin' & Hloop & ->).
  assert (text' = text) by congruence. subst text'.
  apply for_loop_Ok in Hloop as (b' & E & Hb & _).
  simpl in Hb. subst b'.
  exists b. split; [reflexivity|].
  apply split_converted; assumption.
Qed.

Lemma split_table_gives_words_witness :
  let text := [97; 110; 116; 10; 98; 97; 116] in
  exists b,
    wordtable_bin (fst (run 5 (mkFiles (Some text) None None))) = Some b /\
    map Some (split_on 0x00 b) =
    map (fun l => encode_utf8 (strip_newline l))
        (firstn (Z.to_nat 5) (text_lines text)).
Proof.
  apply (split_table_gives_words 5
           (mkFiles (Some [97; 110; 116; 10; 98; 97; 116]) None None)
           [97; 110; 116; 10; 98; 97; 116]).
  - reflexivity.
  - simpl. unfold NUL. lia.
  - reflexivity.
Defined.

(** X10: a larger word count only appends.  When the run with the count
    [m] exits normally, so does the run with any smaller count [n], and
    its [wordtable.bin] is the beginning of the other. *)
Theorem smaller_count_gives_prefix (n m : Z) (fs : files) (text : str) :
  input_file fs = Some text ->
  n <= m ->
  snd (run m fs) = Exit0 ->
  snd (run n fs) = Exit0 /\
  exists bn more,
    wordtable_bin (fst (run n fs)) = Some bn /\
    wordtable_bin (fst (run m fs)) = Some (bn ++ more).
Proof.
  intros Hin Hle Hrun.
  pose proof (run_by_first_lines m fs text Hin) as Rm.
  pose proof (run_by_first_lines n fs text Hin) as Rn.
  destruct (first_lines_le n m text Hle) as (rest & Hrest).
  rewrite Hrest, replace_app in Rm.
  destruct (encode_utf8 (replace NL NUL (first_lines n text) ++ _))
    as [bm|] eqn:Em; [|rewrite Rm in Hrun; discriminate].
  apply encode_utf8_app_inv in Em as (bn & more & En & _ & ->).
  rewrite En in Rn. rewrite Rn, Rm. simpl.
  split; [reflexivity|]. exists bn, more. split; reflexivity.
Qed.

Lemma smaller_count_gives_prefix_witness :
  let fs := only_input ant_bat_cat in
  snd (run 2 fs) = Exit0 /\
  exists bn more,
    wordtable_bin (fst (run 2 fs)) = Some bn /\
    wordtable_bin (fst (run 3 fs)) = Some (bn ++ more).
Proof.
  apply (smaller_count_gives_prefix 2 3 (only_input ant_bat_cat)
           (str_of_string ant_bat_cat)).
  - reflexivity.
  - lia.
  - reflexivity.
Defined.

(** X11: after a normal run [wordtable.bin] has one null byte for each
    newline and one for each null character of the first
    [NUMBER_OF_WORDS] lines, and no other. *)
Theorem null_bytes_counted (n : Z) (fs : files) (text : str) :
  input_file fs = Some text ->
  snd (run n fs) = Exit0 ->
  exists b,
    wordtable_bin (fst (run n fs)) = Some b /\
    count_occ Z.eq_dec b 0x00 =
    (count_occ Z.eq_dec (first_lines n text) NL +
     count_occ Z.eq_dec (first_lines n text) NUL)%nat.
Proof.
  intros Hin Hrun. pose proof (run_by_first_lines n fs text Hin) as R.
  destruct (encode_utf8 (replace NL NUL (first_lines n text))) as [b|] eqn:E.
  - exists b. rewrite R. split; [reflexivity|].
    apply encode_replace_nulls. exact E.
  - rewrite R in Hrun. discriminate.
Qed.

Lemma null_bytes_counted_witness :
  let text := [97; 0; 98; 10; 99] in
  exists b,
    wordtable_bin (fst (run 2 (mkFiles (Some text) None None))) = Some b /\
    count_occ Z.eq_dec b 0x00 =
    (count_occ Z.eq_dec (first_lines 2 text) NL +
     count_occ Z.eq_dec (first_lines 2 text) NUL)%nat.
Proof.
  apply (null_bytes_counted 2
           (mkFiles (Some [97; 0; 98; 10; 99]) None None)
           [97; 0; 98; 10; 99]).
  - reflexivity.
  - reflexivity.
Defined.
